(** * Correlation-analysis dashboard ([main.py]): a shallow embedding

    Values are exact reals; a missing or undefined pandas float (NaN) is
    [None].  Streamlit calls are events written to an output log; a raised
    Python exception ends the run with the events emitted so far. *)

From Stdlib Require Import Reals Lra Lia List String Ascii Bool Arith Permutation Sorted.
Import ListNotations.

Open Scope R_scope.

(** ** Data model *)

(** A cell of the raw CSV table as [pd.read_csv] delivers it: a number, an
    empty field (NaN), or text. *)
Inductive cell :=
| CNum (r : R)
| CNaN
| CStr (s : string).

(** A pandas float: [None] is NaN. *)
Definition fval := option R.

(** A labelled table: column name and column cells, in column order. *)
Definition raw_table := list (string * list cell).
Definition num_table := list (string * list fval).

(** A labelled Series (index label, value). *)
Definition series := list (string * fval).

Definition names {A} (t : list (string * A)) : list string := map fst t.

(** Python exceptions the modelled code can raise. *)
Inductive exn :=
| KeyError (missing : list string).

(** The Streamlit calls of the program, as log entries. *)
Inductive event :=
| Title (s : string)
| Subheader (s : string)
| Header (s : string)
| Markdown (s : string)
| Write (label : string) (n : nat)
| ShowRaw (t : raw_table)
| ShowNum (t : num_table)
| ShowSeries (s : series)
| ErrorBanner (s : string)
| SuccessBanner (features : list string)
| Heatmap (m : list (list fval))
| Scatter (feature : string) (color : string) (corr : fval).

(** ** A writer-and-exception monad for the Streamlit script *)

Inductive run (A : Type) :=
| Ok (log : list event) (a : A)
| Raised (log : list event) (e : exn).
Arguments Ok {A} log a.
Arguments Raised {A} log e.

Definition ret {A} (a : A) : run A := Ok [] a.

Definition bind {A B} (m : run A) (k : A -> run B) : run B :=
  match m with
  | Ok l a =>
      match k a with
      | Ok l' b => Ok (l ++ l') b
      | Raised l' e => Raised (l ++ l') e
      end
  | Raised l e => Raised l e
  end.

Definition emit (ev : event) : run unit := Ok [ev] tt.
Definition raise {A} (e : exn) : run A := Raised [] e.

Notation "x <- m ;; k" := (bind m (fun x => k))
  (at level 61, m at next level, right associativity).
Notation "m ;;; k" := (bind m (fun _ => k))
  (at level 61, right associativity).

(** The events a run wrote, whether it returned or raised. *)
Definition log_of {A} (m : run A) : list event :=
  match m with Ok l _ => l | Raised l _ => l end.

(** ** Column access *)

Definition lookup {A} (k : string) (t : list (string * A)) : option A :=
  match find (fun p => String.eqb (fst p) k) t with
  | Some p => Some (snd p)
  | None => None
  end.

(** [df[cols]]: a list-of-labels selection raises [KeyError] naming the
    labels that are not columns; otherwise it returns the columns in the
    order of [cols]. *)
Definition select_columns {A} (t : list (string * A)) (cols : list string)
  : run (list (string * A)) :=
  let missing := filter (fun c => negb (existsb (String.eqb c) (names t))) cols in
  match missing with
  | [] => ret (flat_map (fun c => match lookup c t with
                                 | Some col => [(c, col)]
                                 | None => []
                                 end) cols)
  | _ :: _ => raise (KeyError missing)
  end.

(** ** String to number coercion *)

Definition digit_val (c : ascii) : option nat :=
  let n := nat_of_ascii c in
  if (48 <=? n)%nat && (n <=? 57)%nat then Some (n - 48)%nat else None.

(** Digits with at most one decimal point: the integer of all digits and
    the number of digits after the point. *)
Fixpoint parse_digits (s : string) (seen_dot : bool) (acc k : nat) (any : bool)
  : option (nat * nat) :=
  match s with
  | EmptyString => if any then Some (acc, k) else None
  | String c rest =>
      if Ascii.eqb c "."%char then
        if seen_dot then None else parse_digits rest true acc k any
      else
        match digit_val c with
        | Some d =>
            parse_digits rest seen_dot (acc * 10 + d)%nat
              (if seen_dot then S k else k) true
        | None => None
        end
  end.

(** [pd.to_numeric] on a text cell: a signed decimal literal parses to its
    value; any other text coerces to NaN ([errors='coerce']).  Exponent
    notation and the literals ["inf"] / ["nan"] are not modelled (they give
    [None] here). *)
Definition parse_float (s : string) : fval :=
  let '(neg, body) :=
    match s with
    | String "-"%char rest => (true, rest)
    | String "+"%char rest => (false, rest)
    | _ => (false, s)
    end in
  match parse_digits body false 0 0 false with
  | Some (m, k) =>
      let v := INR m / 10 ^ k in
      Some (if neg then - v else v)
  | None => None
  end.

(** [pd.to_numeric(x, errors='coerce')] on one cell. *)
Definition to_numeric (c : cell) : fval :=
  match c with
  | CNum r => Some r
  | CNaN => None
  | CStr s => parse_float s
  end.

(** ** Column statistics *)

Definition sumR (l : list R) : R := fold_right Rplus 0 l.

(** The non-missing values of a column. *)
Fixpoint somes (c : list fval) : list R :=
  match c with
  | [] => []
  | Some v :: c' => v :: somes c'
  | None :: c' => somes c'
  end.

(** [Series.mean()] (skipna): NaN when there is no observation. *)
Definition col_mean (c : list fval) : fval :=
  match somes c with
  | [] => None
  | vs => Some (sumR vs / INR (List.length vs))
  end.

(** [df.fillna(df.mean())]: each NaN cell of a column takes the column's
    mean, which may itself be NaN. *)
Definition fill_column (m : fval) (c : list fval) : list fval :=
  map (fun v => match v with Some x => Some x | None => m end) c.

Definition fillna_mean (t : num_table) : num_table :=
  map (fun '(n, c) => (n, fill_column (col_mean c) c)) t.

(** ** [preprocess_data] *)

Definition numerical_cols : list string :=
  ["신장"; "체중"; "체지방율"; "허리둘레"; "이완기혈압_최저"; "수축기혈압_최고";
   "악력_좌"; "악력_우"; "윗몸말아올리기"; "제자리 멀리뛰기"; "BMI";
   "상대악력"; "허리둘레-신장비"; "반복옆뛰기"]%string.

Definition target : string := "체지방율"%string.

Definition n_rows {A} (t : list (string * list A)) : nat :=
  match t with [] => 0 | (_, c) :: _ => List.length c end.

Definition head5 {A} (t : list (string * list A)) : list (string * list A) :=
  map (fun '(n, c) => (n, firstn 5 c)) t.

Definition preprocess_data (df : raw_table) : run num_table :=
  emit (Subheader "📊 데이터 전처리") ;;;
  sel <- select_columns df numerical_cols ;;
  let df_numeric := map (fun '(n, c) => (n, map to_numeric c)) sel in
  let df_numeric := fillna_mean df_numeric in
  emit (Write "전처리 후 사용 가능한 숫자형 데이터 수" (n_rows df_numeric)) ;;;
  emit (ShowNum (head5 df_numeric)) ;;;
  ret df_numeric.

(** ** [df.corr()]: Pearson correlation over pairwise-complete rows *)

(** The rows where both columns hold a value (pandas' mask in [nancorr]). *)
Fixpoint pairs (x y : list fval) : list (R * R) :=
  match x, y with
  | Some a :: x', Some b :: y' => (a, b) :: pairs x' y'
  | _ :: x', _ :: y' => pairs x' y'
  | _, _ => []
  end.

Definition mean (l : list R) : R := sumR l / INR (List.length l).

(** Deviations of both coordinates from their means. *)
Definition devs (ps : list (R * R)) : list (R * R) :=
  let mx := mean (map fst ps) in
  let my := mean (map snd ps) in
  map (fun p => (fst p - mx, snd p - my)) ps.

Definition sxy (ds : list (R * R)) : R := sumR (map (fun p => fst p * snd p) ds).
Definition sxx (ds : list (R * R)) : R := sumR (map (fun p => fst p * fst p) ds).
Definition syy (ds : list (R * R)) : R := sumR (map (fun p => snd p * snd p) ds).

(** The clip [nancorr] applies to [covxy / divisor]: values above 1 become
    1, values below -1 become -1. *)
Definition clip (v : R) : R :=
  if Rlt_dec 1 v then 1 else if Rlt_dec v (-1) then -1 else v.

(** One entry of [nancorr] (min_periods = 1): NaN with no complete row, NaN
    when [sqrt(ssqdmx * ssqdmy)] is zero, otherwise [covxy / divisor]
    clipped to [[-1, 1]].  The sums are those of the complete rows, taken
    here as exact sums of deviations from the means. *)
Definition pearson (x y : list fval) : fval :=
  match pairs x y with
  | [] => None
  | ps =>
      let ds := devs ps in
      let divisor := sqrt (sxx ds * syy ds) in
      if Req_dec_T divisor 0 then None else Some (clip (sxy ds / divisor))
  end.

Definition col (t : num_table) (i : nat) : list fval := nth i (map snd t) [].

(** [nancorr] fills the lower triangle ([yi <= xi]) with
    [corr(col xi, col yi)] and copies each value to [result[yi, xi]]. *)
Definition corr_at (t : num_table) (i j : nat) : fval :=
  if (j <=? i)%nat then pearson (col t i) (col t j)
  else pearson (col t j) (col t i).

Definition corr_matrix (t : num_table) : list (list fval) :=
  let n := List.length t in
  map (fun i => map (fun j => corr_at t i j) (seq 0 n)) (seq 0 n).

Definition mat_get (m : list (list fval)) (i j : nat) : option fval :=
  match nth_error m i with
  | Some row => nth_error row j
  | None => None
  end.

Fixpoint index_of (k : string) (l : list string) : nat :=
  match l with
  | [] => 0
  | x :: l' => if String.eqb x k then 0 else S (index_of k l')
  end.

(** [correlation_matrix[k]]: the column of the matrix labelled [k], indexed
    by the column names. *)
Definition corr_column (t : num_table) (k : string) : series :=
  let c := index_of k (names t) in
  map (fun i => (nth i (names t) ""%string, corr_at t i c)) (seq 0 (List.length t)).

(** ** Series operations *)

(** Descending order on pandas floats with NaN last: [fge x y] holds when
    [x] may precede [y]. *)
Definition fgeb (x y : fval) : bool :=
  match x, y with
  | _, None => true
  | None, Some _ => false
  | Some a, Some b => if Rle_dec b a then true else false
  end.

Fixpoint insert_desc (p : string * fval) (l : series) : series :=
  match l with
  | [] => [p]
  | q :: l' => if fgeb (snd p) (snd q) then p :: q :: l' else q :: insert_desc p l'
  end.

(** [Series.sort_values(ascending=False)] (na_position='last'), as the
    stable sort that pandas' [nargsort] performs. *)
Definition sort_desc (s : series) : series := fold_right insert_desc [] s.

(** [Series.drop(k)]: removes every entry labelled [k]. *)
Definition drop (k : string) (s : series) : series :=
  filter (fun p => negb (String.eqb (fst p) k)) s.

(** [Series.abs()]. *)
Definition abs_series (s : series) : series :=
  map (fun p => (fst p, option_map Rabs (snd p))) s.

(** [s[k]]: [KeyError] when [k] is not a label. *)
Definition series_at (s : series) (k : string) : run fval :=
  match lookup k s with
  | Some v => ret v
  | None => raise (KeyError [k])
  end.

(** [color = 'red' if corr_value < 0 else 'blue']; a NaN compares false. *)
Definition color_of (v : fval) : string :=
  match v with
  | Some r => if Rlt_dec r 0 then "red"%string else "blue"%string
  | None => "blue"%string
  end.

(** ** [analyze_and_visualize] *)

(** The loop [for feature in highest_corr_features]: one scatter plot per
    feature, its colour chosen from [target_corr[feature]]. *)
Fixpoint plot_scatters (target_corr : series) (fs : list string) : run unit :=
  match fs with
  | [] => ret tt
  | f :: fs' =>
      corr_value <- series_at target_corr f ;;
      emit (Scatter f (color_of corr_value) corr_value) ;;;
      plot_scatters target_corr fs'
  end.

Definition missing_target_msg : string :=
  "데이터에 '체지방율' 열이 없습니다. 컬럼 이름을 확인해주세요.".

Definition target_corr_of (df : num_table) : series :=
  drop target (sort_desc (corr_column df target)).

Definition ranking_of (df : num_table) : series :=
  sort_desc (abs_series (target_corr_of df)).

Definition highest_corr_features (df : num_table) : list string :=
  names (firstn 3 (ranking_of df)).

Definition analyze_and_visualize (df_numeric : num_table) : run unit :=
  if negb (existsb (String.eqb target) (names df_numeric)) then
    emit (ErrorBanner missing_target_msg)
  else
    emit (Header "🔍 체지방율 상관관계 분석") ;;;
    let correlation_matrix := corr_matrix df_numeric in
    let target_corr := drop target (sort_desc (corr_column df_numeric target)) in
    emit (Markdown "### 🥇 체지방율과 상관관계가 가장 높은 속성") ;;;
    emit (ShowSeries (firstn 10 (sort_desc (abs_series target_corr)))) ;;;
    let highest := names (firstn 3 (sort_desc (abs_series target_corr))) in
    emit (SuccessBanner highest) ;;;
    emit (Header "🔥 전체 데이터 상관관계 히트맵") ;;;
    emit (Heatmap correlation_matrix) ;;;
    emit (Markdown "---") ;;;
    emit (Header "📉 체지방율 vs. 상위 상관관계 속성 산점도") ;;;
    plot_scatters target_corr highest.

(** ** [load_data] and [main] *)

(** What [pd.read_csv] did with the input file. *)
Inductive csv_source :=
| Loaded (df : raw_table)
| FileNotFound
| ReadFailure (cause : string).

Definition file_path : string :=
  "fitness data.xlsx - KS_NFA_FTNESS_MESURE_ITEM_MESUR.csv".

Definition load_data (src : csv_source) : run (option raw_table) :=
  match src with
  | Loaded df => ret (Some df)
  | FileNotFound => emit (ErrorBanner ("파일을 찾을 수 없습니다: " ++ file_path)) ;;; ret None
  | ReadFailure e => emit (ErrorBanner ("데이터 로딩 중 오류 발생: " ++ e)) ;;; ret None
  end.

(** [DataFrame.empty]: no column or no row. *)
Definition is_empty {A} (t : list (string * list A)) : bool :=
  match t with [] => true | (_, c) :: _ => Nat.eqb (List.length c) 0 end.

(** The body of [main] after a successful load. *)
Definition main_with (df : raw_table) : run unit :=
  emit (Subheader "📄 원본 데이터 미리보기") ;;;
  emit (ShowRaw (head5 df)) ;;;
  emit (Write "전체 데이터 수" (n_rows df)) ;;;
  emit (Markdown "---") ;;;
  df_numeric <- preprocess_data df ;;
  if negb (is_empty df_numeric) then
    emit (Markdown "---") ;;;
    analyze_and_visualize df_numeric
  else ret tt.

Definition main (src : csv_source) : run unit :=
  emit (Title "🏃‍♀️ 운동 데이터 분석 웹사이트") ;;;
  emit (Markdown ("파일 **`" ++ file_path ++ "`**을 분석합니다.")) ;;;
  df <- load_data src ;;
  match df with
  | Some df => main_with df
  | None => ret tt
  end.

(** ** Sample tables *)

(** All fourteen allow-listed columns over two rows; [BMI] is given. *)
Definition full_raw (bmi : list cell) : raw_table :=
  map (fun n => (n, if String.eqb n "BMI" then bmi else [CNum 1; CNum 2])) numerical_cols.

(** The allow-list without its last name, [반복옆뛰기]. *)
Definition raw_without_last : raw_table :=
  map (fun n => (n, [CNum 1; CNum 2])) (removelast numerical_cols).

(** All fourteen allow-listed columns of a numeric table: [BMI] is given,
    the others hold the rows [0, a]. *)
Definition full_num (a : R) (bmi : list fval) : num_table :=
  map (fun n => (n, if String.eqb n "BMI" then bmi else [Some 0; Some a])) numerical_cols.

(** A raw table with no allow-listed column. *)
Definition other_columns_only : raw_table :=
  [("측정일"%string, [CStr "2024-01-01"; CStr "2024-01-02"])].



(** A numeric table without the target column. *)
Definition bmi_only : num_table := [("BMI"%string, [Some 1; Some 2])].

(** ** Vocabulary of the properties *)

(** [p] may precede [q] in a descending, NaN-last order. *)
Definition fge_entry (p q : string * fval) : Prop := fgeb (snd p) (snd q) = true.

(** The value [target_corr[f]] once [f] is known to be a label. *)
Definition series_get (s : series) (k : string) : fval :=
  match lookup k s with Some v => v | None => None end.

Definition scatter_event (target_corr : series) (f : string) : event :=
  Scatter f (color_of (series_get target_corr f)) (series_get target_corr f).

(** Output of the analysis stage, or a banner. *)
Definition analysis_or_banner (ev : event) : bool :=
  match ev with
  | ErrorBanner _ | SuccessBanner _ | Heatmap _ | Scatter _ _ _ | ShowSeries _ => true
  | _ => false
  end.

(** The table [preprocess_data] builds (lines 36-43) once the projection
    succeeded: selected columns, coerced, NaN cells filled with the mean. *)
Definition numeric_of (df : raw_table) : num_table :=
  fillna_mean (map (fun '(n, c) => (n, map to_numeric c))
    (flat_map (fun c => match lookup c df with
                        | Some col => [(c, col)]
                        | None => []
                        end) numerical_cols)).

(** All fourteen allow-listed columns, no row. *)
Definition zero_row_raw : raw_table := map (fun n => (n, [])) numerical_cols.

(** A scatter plot of the last section. *)
Definition is_scatter (ev : event) : bool :=
  match ev with Scatter _ _ _ => true | _ => false end.

(** * Properties *)

(** ** The monad *)

Lemma bind_ok {A B} l (a : A) (k : A -> run B) :
  bind (Ok l a) k = match k a with
                    | Ok l' b => Ok (l ++ l') b
                    | Raised l' e => Raised (l ++ l') e
                    end.
Proof. reflexivity. Qed.

Lemma bind_raised {A B} l e (k : A -> run B) : bind (Raised l e) k = Raised l e.
Proof. reflexivity. Qed.

Lemma existsb_eqb_In (k : string) (l : list string) :
  existsb (String.eqb k) l = true <-> In k l.
Proof.
  rewrite existsb_exists. split.
  - intros [x [Hx Heq]]. apply String.eqb_eq in Heq. subst. exact Hx.
  - intros H. exists k. split; [exact H | apply String.eqb_refl].
Qed.

Lemma select_columns_missing {A} (t : list (string * A)) cols c :
  In c cols -> ~ In c (names t) ->
  exists missing, In c missing /\
    select_columns t cols = Raised [] (KeyError missing).
Proof.
  intros Hin Hnot. unfold select_columns.
  set (missing := filter _ cols).
  assert (Hm : In c missing).
  { apply filter_In. split; [exact Hin|].
    destruct (existsb (String.eqb c) (names t)) eqn:E; [|reflexivity].
    apply existsb_eqb_In in E. contradiction. }
  destruct missing as [|m ms] eqn:Em; [contradiction|].
  exists (m :: ms). split; [exact Hm | reflexivity].
Qed.

Lemma select_columns_all {A} (t : list (string * A)) cols :
  Forall (fun c => In c (names t)) cols ->
  select_columns t cols =
  ret (flat_map (fun c => match lookup c t with
                          | Some col => [(c, col)]
                          | None => []
                          end) cols).
Proof.
  intros Hall. unfold select_columns.
  replace (filter _ cols) with (@nil string); [reflexivity|].
  symmetry.
  rewrite Forall_forall in Hall.
  induction cols as [|c cs IH]; [reflexivity|]. simpl.
  assert (Hc : existsb (String.eqb c) (names t) = true)
    by (apply existsb_eqb_In; apply Hall; left; reflexivity).
  rewrite Hc. simpl. apply IH. intros x Hx. apply Hall. right. exact Hx.
Qed.

(** ** Projection onto the allow-list *)

(** The run of [preprocess_data] and of [main] when an allow-listed name
    is not a column. *)
Lemma missing_column_runs (df : raw_table) (c : string) :
  In c numerical_cols -> ~ In c (names df) ->
  exists missing, In c missing /\
    preprocess_data df = Raised [Subheader "📊 데이터 전처리"] (KeyError missing) /\
    main (Loaded df) =
      Raised [Title "🏃‍♀️ 운동 데이터 분석 웹사이트";
              Markdown ("파일 **`" ++ file_path ++ "`**을 분석합니다.");
              Subheader "📄 원본 데이터 미리보기"; ShowRaw (head5 df);
              Write "전체 데이터 수" (n_rows df); Markdown "---";
              Subheader "📊 데이터 전처리"] (KeyError missing).
Proof.
  intros Hin Hnot.
  destruct (select_columns_missing df numerical_cols c Hin Hnot) as [m [Hm Hsel]].
  exists m. split; [exact Hm|].
  assert (Hpre : preprocess_data df = Raised [Subheader "📊 데이터 전처리"] (KeyError m)).
  { unfold preprocess_data, emit. rewrite bind_ok, Hsel. reflexivity. }
  split; [exact Hpre|].
  unfold main, main_with, load_data. cbn [ret bind emit].
  rewrite Hpre. reflexivity.
Qed.

(** C10: when one allow-listed name is not a column of the raw table,
    [preprocess_data] raises [KeyError] at [df[numerical_cols]] after its
    subheader, and [main] ends with that exception: no numeric table, no
    error or success banner is produced. *)
Theorem preprocess_raises_on_missing_column (df : raw_table) (c : string) :
  In c numerical_cols -> ~ In c (names df) ->
  exists missing, In c missing /\
    preprocess_data df = Raised [Subheader "📊 데이터 전처리"] (KeyError missing) /\
    main (Loaded df) =
      Raised [Title "🏃‍♀️ 운동 데이터 분석 웹사이트";
              Markdown ("파일 **`" ++ file_path ++ "`**을 분석합니다.");
              Subheader "📄 원본 데이터 미리보기"; ShowRaw (head5 df);
              Write "전체 데이터 수" (n_rows df); Markdown "---";
              Subheader "📊 데이터 전처리"] (KeyError missing).
Proof. exact (missing_column_runs df c). Qed.

Lemma preprocess_raises_on_missing_column_witness :
  In "반복옆뛰기"%string numerical_cols /\ ~ In "반복옆뛰기"%string (names raw_without_last) /\
  exists missing, In "반복옆뛰기"%string missing /\
    preprocess_data raw_without_last =
      Raised [Subheader "📊 데이터 전처리"] (KeyError missing) /\
    main (Loaded raw_without_last) =
      Raised [Title "🏃‍♀️ 운동 데이터 분석 웹사이트";
              Markdown ("파일 **`" ++ file_path ++ "`**을 분석합니다.");
              Subheader "📄 원본 데이터 미리보기"; ShowRaw (head5 raw_without_last);
              Write "전체 데이터 수" (n_rows raw_without_last); Markdown "---";
              Subheader "📊 데이터 전처리"] (KeyError missing).
Proof.
  assert (H1 : In "반복옆뛰기"%string numerical_cols)
    by (apply existsb_eqb_In; vm_compute; reflexivity).
  assert (H2 : ~ In "반복옆뛰기"%string (names raw_without_last))
    by (intro H; apply existsb_eqb_In in H; vm_compute in H; discriminate).
  split; [exact H1|]. split; [exact H2|].
  exact (preprocess_raises_on_missing_column raw_without_last _ H1 H2).
Defined.

(** C1 (code bug): the raw table holding every allow-listed column except
    [반복옆뛰기] is not projected onto the thirteen present columns;
    [preprocess_data] raises [KeyError ['반복옆뛰기']]. *)
Theorem preprocess_does_not_drop_absent_column :
  preprocess_data raw_without_last =
    Raised [Subheader "📊 데이터 전처리"] (KeyError ["반복옆뛰기"%string]).
Proof. vm_compute. reflexivity. Qed.

(** When every allow-listed name is a column, the numeric table has exactly
    the allow-listed columns, in allow-list order. *)
Lemma preprocess_columns_in_order (df : raw_table) :
  Forall (fun c => In c (names df)) numerical_cols ->
  exists log t, preprocess_data df = Ok log t /\ names t = numerical_cols.
Proof.
  intros Hall. unfold preprocess_data, emit.
  rewrite bind_ok, (select_columns_all df numerical_cols Hall).
  eexists. eexists. split; [reflexivity|].
  unfold fillna_mean, names. rewrite !map_map.
  rewrite Forall_forall in Hall.
  induction numerical_cols as [|c cs IH]; [reflexivity|].
  simpl.
  destruct (lookup c df) as [col0|] eqn:E.
  - simpl. f_equal. apply IH. intros x Hx. apply Hall. right. exact Hx.
  - exfalso. specialize (Hall c (or_introl eq_refl)).
    unfold lookup in E. destruct (find _ df) eqn:F; [discriminate|].
    unfold names in Hall. apply in_map_iff in Hall as [[n v] [Hn Hin]].
    simpl in Hn. subst n.
    pose proof (find_none _ _ F (c, v) Hin) as Hf. simpl in Hf.
    rewrite String.eqb_refl in Hf. discriminate.
Qed.

(** ** The missing-target guard *)

(** C5: on a numeric table without the column [체지방율],
    [analyze_and_visualize] shows the error banner and returns: its whole
    output is that banner, with no heatmap and no scatter plot. *)
Theorem analyze_without_target (df : num_table) :
  ~ In target (names df) ->
  analyze_and_visualize df = Ok [ErrorBanner missing_target_msg] tt.
Proof.
  intros Hnot. unfold analyze_and_visualize.
  destruct (existsb (String.eqb target) (names df)) eqn:E.
  - apply existsb_eqb_In in E. contradiction.
  - reflexivity.
Qed.

Lemma analyze_without_target_witness :
  ~ In target (names bmi_only) /\
  analyze_and_visualize bmi_only = Ok [ErrorBanner missing_target_msg] tt.
Proof.
  assert (H : ~ In target (names bmi_only))
    by (intro H; apply existsb_eqb_In in H; vm_compute in H; discriminate).
  split; [exact H | exact (analyze_without_target bmi_only H)].
Defined.

(** ** Sorting and ranking *)

Lemma fgeb_total x y : fgeb x y = false -> fgeb y x = true.
Proof.
  destruct x as [a|], y as [b|]; simpl; try discriminate; auto.
  destruct (Rle_dec b a); [discriminate|]. intros _.
  destruct (Rle_dec a b); [reflexivity | lra].
Qed.

Lemma insert_desc_perm p l : Permutation (insert_desc p l) (p :: l).
Proof.
  induction l as [|q l IH]; simpl; [reflexivity|].
  destruct (fgeb (snd p) (snd q)); [reflexivity|].
  rewrite IH. apply perm_swap.
Qed.

Lemma sort_desc_perm s : Permutation (sort_desc s) s.
Proof.
  induction s as [|p s IH]; simpl; [reflexivity|].
  rewrite insert_desc_perm, IH. reflexivity.
Qed.

Lemma insert_desc_sorted p l :
  Sorted fge_entry l -> Sorted fge_entry (insert_desc p l).
Proof.
  induction l as [|q l IH]; simpl; intros Hs.
  - repeat constructor.
  - destruct (fgeb (snd p) (snd q)) eqn:E.
    + constructor; [exact Hs | constructor; exact E].
    + apply fgeb_total in E.
      inversion Hs as [|? ? Hl Hhd]; subst.
      constructor; [apply IH; exact Hl|].
      destruct l as [|r l]; simpl.
      * constructor. exact E.
      * destruct (fgeb (snd p) (snd r)); constructor; [exact E|].
        inversion Hhd; assumption.
Qed.

Lemma sort_desc_sorted s : Sorted fge_entry (sort_desc s).
Proof.
  induction s as [|p s IH]; simpl; [constructor|].
  apply insert_desc_sorted. exact IH.
Qed.

Lemma firstn_sorted {A} (Rel : A -> A -> Prop) n l :
  Sorted Rel l -> Sorted Rel (firstn n l).
Proof.
  revert l. induction n as [|n IH]; intros l Hs; simpl; [constructor|].
  destruct l as [|a l]; [constructor|].
  inversion Hs as [|? ? Hl Hhd]; subst.
  constructor; [apply IH; exact Hl|].
  destruct n as [|n]; simpl; [constructor|].
  destruct l as [|b l]; [constructor|].
  inversion Hhd; subst. constructor. assumption.
Qed.

Lemma In_firstn {A} n l (x : A) : In x (firstn n l) -> In x l.
Proof.
  intros H. rewrite <- (firstn_skipn n l). apply in_or_app. left. exact H.
Qed.

Lemma Permutation_filter_compat {A} (f : A -> bool) l l' :
  Permutation l l' -> Permutation (filter f l) (filter f l').
Proof.
  induction 1; simpl.
  - constructor.
  - destruct (f x); [constructor|]; assumption.
  - destruct (f x), (f y); try constructor; reflexivity.
  - eapply perm_trans; eassumption.
Qed.

Lemma names_drop k s :
  names (drop k s) = filter (fun n => negb (String.eqb n k)) (names s).
Proof.
  induction s as [|[n v] s IH]; simpl; [reflexivity|].
  destruct (String.eqb n k); simpl; rewrite IH; reflexivity.
Qed.

Lemma names_abs_series s : names (abs_series s) = names s.
Proof. unfold names, abs_series. rewrite map_map. reflexivity. Qed.

Lemma map_nth_seq_id {A} (l : list A) d :
  map (fun i => nth i l d) (seq 0 (List.length l)) = l.
Proof.
  induction l as [|a l IH]; simpl; [reflexivity|].
  f_equal. rewrite <- seq_shift, map_map. exact IH.
Qed.

Lemma names_corr_column df k : names (corr_column df k) = names df.
Proof.
  unfold corr_column, names at 1. rewrite map_map. simpl.
  replace (List.length df) with (List.length (names df))
    by (unfold names; apply length_map).
  apply map_nth_seq_id.
Qed.

Lemma target_not_in_target_corr df : ~ In target (names (target_corr_of df)).
Proof.
  unfold target_corr_of. rewrite names_drop. intros H.
  apply filter_In in H as [_ H]. rewrite String.eqb_refl in H. discriminate.
Qed.

Lemma target_corr_length df :
  List.length (target_corr_of df) =
  List.length (filter (fun n => negb (String.eqb n target)) (names df)).
Proof.
  unfold target_corr_of.
  rewrite <- (length_map fst (drop _ _)). fold (names (drop target (sort_desc (corr_column df target)))).
  rewrite names_drop. apply Permutation_length.
  rewrite <- (names_corr_column df target).
  apply Permutation_filter_compat. apply Permutation_map. apply sort_desc_perm.
Qed.

Lemma lookup_In_names {A} k (t : list (string * A)) :
  In k (names t) -> exists v, lookup k t = Some v /\ In (k, v) t.
Proof.
  unfold lookup. intros H.
  destruct (find (fun p => String.eqb (fst p) k) t) as [[n v]|] eqn:F.
  - apply find_some in F as [Hin Heq]. simpl in Heq.
    apply String.eqb_eq in Heq. subst n. exists v. split; [reflexivity | exact Hin].
  - exfalso. apply in_map_iff in H as [[n v] [Hn Hin]]. simpl in Hn. subst n.
    pose proof (find_none _ _ F _ Hin) as Hf. simpl in Hf.
    rewrite String.eqb_refl in Hf. discriminate.
Qed.

Lemma series_get_In s k : In k (names s) -> In (k, series_get s k) s.
Proof.
  intros H. destruct (lookup_In_names k s H) as [v [Hl Hin]].
  unfold series_get. rewrite Hl. exact Hin.
Qed.

Lemma plot_scatters_ok tc fs :
  (forall f, In f fs -> In f (names tc)) ->
  plot_scatters tc fs = Ok (map (scatter_event tc) fs) tt.
Proof.
  induction fs as [|f fs IH]; intros Hfs; [reflexivity|].
  simpl. unfold series_at.
  destruct (lookup_In_names f tc (Hfs f (or_introl eq_refl))) as [v [Hl _]].
  rewrite Hl. cbn [ret emit bind app].
  rewrite IH by (intros g Hg; apply Hfs; right; exact Hg).
  unfold scatter_event, series_get. rewrite Hl. reflexivity.
Qed.

Lemma highest_in_target_corr df f :
  In f (highest_corr_features df) -> In f (names (target_corr_of df)).
Proof.
  unfold highest_corr_features, ranking_of, names at 1. intros H.
  rewrite <- firstn_map in H. apply In_firstn in H.
  rewrite <- names_abs_series.
  eapply Permutation_in; [apply Permutation_map, sort_desc_perm | exact H].
Qed.

(** With the target present, the analysis writes the ranking table, the
    success banner, the heatmap and one scatter plot per top feature. *)
Lemma analyze_with_target df :
  In target (names df) ->
  analyze_and_visualize df =
  Ok ([Header "🔍 체지방율 상관관계 분석";
       Markdown "### 🥇 체지방율과 상관관계가 가장 높은 속성";
       ShowSeries (firstn 10 (ranking_of df));
       SuccessBanner (highest_corr_features df);
       Header "🔥 전체 데이터 상관관계 히트맵";
       Heatmap (corr_matrix df);
       Markdown "---";
       Header "📉 체지방율 vs. 상위 상관관계 속성 산점도"]
      ++ map (scatter_event (target_corr_of df)) (highest_corr_features df)) tt.
Proof.
  intros Hin. unfold analyze_and_visualize.
  apply existsb_eqb_In in Hin. rewrite Hin. cbn [negb].
  fold (target_corr_of df).
  fold (ranking_of df). fold (highest_corr_features df).
  rewrite plot_scatters_ok by apply highest_in_target_corr.
  reflexivity.
Qed.

(** C3: the ranked correlations never contain [체지방율]; the ranking table
    shown holds at most ten entries, each the absolute value of a ranked
    correlation with the target, in descending order (NaN entries last). *)
Theorem ranking_table_sorted (df : num_table) :
  In target (names df) ->
  ~ In target (names (target_corr_of df)) /\
  exists log, analyze_and_visualize df = Ok log tt /\
    In (ShowSeries (firstn 10 (ranking_of df))) log /\
    ~ In target (names (firstn 10 (ranking_of df))) /\
    List.length (firstn 10 (ranking_of df)) =
      Nat.min 10 (List.length (target_corr_of df)) /\
    Sorted fge_entry (firstn 10 (ranking_of df)) /\
    (forall n v, In (n, v) (firstn 10 (ranking_of df)) ->
       exists v0, In (n, v0) (target_corr_of df) /\ v = option_map Rabs v0).
Proof.
  intros Hin. split; [apply target_not_in_target_corr|].
  eexists. split; [apply analyze_with_target; exact Hin|].
  split; [simpl; tauto|].
  assert (Hsh : forall n v, In (n, v) (firstn 10 (ranking_of df)) ->
            exists v0, In (n, v0) (target_corr_of df) /\ v = option_map Rabs v0).
  { intros n v H. apply In_firstn in H. unfold ranking_of in H.
    eapply Permutation_in in H; [|apply sort_desc_perm].
    unfold abs_series in H. apply in_map_iff in H as [[n0 v0] [Heq Hin0]].
    simpl in Heq. injection Heq as <- <-. exists v0. split; [exact Hin0 | reflexivity]. }
  split.
  { intros H. unfold names in H. apply in_map_iff in H as [[n v] [Hn H]].
    simpl in Hn. subst n. destruct (Hsh _ _ H) as [v0 [H0 _]].
    apply (target_not_in_target_corr df). apply in_map_iff. exists (target, v0).
    split; [reflexivity | exact H0]. }
  split.
  { rewrite length_firstn. unfold ranking_of.
    rewrite (Permutation_length (sort_desc_perm _)).
    unfold abs_series. rewrite length_map. reflexivity. }
  split; [apply firstn_sorted, sort_desc_sorted | exact Hsh].
Qed.

Lemma ranking_table_sorted_witness :
  In target (names (full_num 1 [Some 1; Some 3])) /\
  ~ In target (names (target_corr_of (full_num 1 [Some 1; Some 3]))) /\
  exists log, analyze_and_visualize (full_num 1 [Some 1; Some 3]) = Ok log tt /\
    In (ShowSeries (firstn 10 (ranking_of (full_num 1 [Some 1; Some 3])))) log /\
    ~ In target (names (firstn 10 (ranking_of (full_num 1 [Some 1; Some 3])))) /\
    List.length (firstn 10 (ranking_of (full_num 1 [Some 1; Some 3]))) =
      Nat.min 10 (List.length (target_corr_of (full_num 1 [Some 1; Some 3]))) /\
    Sorted fge_entry (firstn 10 (ranking_of (full_num 1 [Some 1; Some 3]))) /\
    (forall n v, In (n, v) (firstn 10 (ranking_of (full_num 1 [Some 1; Some 3]))) ->
       exists v0, In (n, v0) (target_corr_of (full_num 1 [Some 1; Some 3])) /\
                  v = option_map Rabs v0).
Proof.
  assert (H : In target (names (full_num 1 [Some 1; Some 3])))
    by (apply existsb_eqb_In; vm_compute; reflexivity).
  split; [exact H | exact (ranking_table_sorted _ H)].
Defined.

Lemma color_of_red v :
  color_of v = "red"%string <-> exists r, v = Some r /\ r < 0.
Proof.
  destruct v as [r|]; simpl.
  - destruct (Rlt_dec r 0) as [Hr|Hr]; split.
    + intros _. exists r. split; [reflexivity | exact Hr].
    + reflexivity.
    + discriminate.
    + intros [r' [Heq Hr']]. injection Heq as <-. contradiction.
  - split; [discriminate | intros [r [Heq _]]; discriminate].
Qed.

Lemma color_of_blue v :
  color_of v = "blue"%string <-> ~ exists r, v = Some r /\ r < 0.
Proof.
  rewrite <- color_of_red. destruct v as [r|]; simpl.
  - destruct (Rlt_dec r 0); split; intros H;
      first [ reflexivity | discriminate | exfalso; apply H; reflexivity
            | intros E; discriminate ].
  - split; [discriminate | reflexivity].
Qed.

(** C4: with the target present, the top-K list has [min 3 n] features for
    [n] non-target columns; one scatter plot per top feature closes the
    output, carrying the feature's signed ranked correlation, red when
    that value is negative and blue otherwise (NaN included). *)
Theorem top3_scatter_colors (df : num_table) :
  In target (names df) ->
  List.length (highest_corr_features df) =
    Nat.min 3 (List.length (filter (fun n => negb (String.eqb n target)) (names df))) /\
  (exists pre, analyze_and_visualize df =
     Ok (pre ++ map (scatter_event (target_corr_of df)) (highest_corr_features df)) tt) /\
  forall f, In f (highest_corr_features df) ->
    In (f, series_get (target_corr_of df) f) (target_corr_of df) /\
    (color_of (series_get (target_corr_of df) f) = "red"%string <->
       exists r, series_get (target_corr_of df) f = Some r /\ r < 0) /\
    (color_of (series_get (target_corr_of df) f) = "blue"%string <->
       ~ exists r, series_get (target_corr_of df) f = Some r /\ r < 0).
Proof.
  intros Hin. split.
  { unfold highest_corr_features, names at 1. rewrite length_map, length_firstn.
    unfold ranking_of. rewrite (Permutation_length (sort_desc_perm _)).
    unfold abs_series. rewrite length_map, target_corr_length. reflexivity. }
  split.
  { eexists. apply analyze_with_target. exact Hin. }
  intros f Hf. split; [apply series_get_In, highest_in_target_corr; exact Hf|].
  split; [apply color_of_red | apply color_of_blue].
Qed.

Lemma top3_scatter_colors_witness :
  In target (names (full_num 1 [Some 1; Some 3])) /\
  List.length (highest_corr_features (full_num 1 [Some 1; Some 3])) =
    Nat.min 3 (List.length (filter (fun n => negb (String.eqb n target))
                                   (names (full_num 1 [Some 1; Some 3])))) /\
  (exists pre, analyze_and_visualize (full_num 1 [Some 1; Some 3]) =
     Ok (pre ++ map (scatter_event (target_corr_of (full_num 1 [Some 1; Some 3])))
                    (highest_corr_features (full_num 1 [Some 1; Some 3]))) tt) /\
  forall f, In f (highest_corr_features (full_num 1 [Some 1; Some 3])) ->
    In (f, series_get (target_corr_of (full_num 1 [Some 1; Some 3])) f)
       (target_corr_of (full_num 1 [Some 1; Some 3])) /\
    (color_of (series_get (target_corr_of (full_num 1 [Some 1; Some 3])) f) = "red"%string <->
       exists r, series_get (target_corr_of (full_num 1 [Some 1; Some 3])) f = Some r /\ r < 0) /\
    (color_of (series_get (target_corr_of (full_num 1 [Some 1; Some 3])) f) = "blue"%string <->
       ~ exists r, series_get (target_corr_of (full_num 1 [Some 1; Some 3])) f = Some r /\ r < 0).
Proof.
  assert (H : In target (names (full_num 1 [Some 1; Some 3])))
    by (apply existsb_eqb_In; vm_compute; reflexivity).
  split; [exact H | exact (top3_scatter_colors _ H)].
Defined.

(** ** Imputation *)

Lemma preprocess_ok_inv df log t :
  preprocess_data df = Ok log t ->
  t = fillna_mean (map (fun '(n, c) => (n, map to_numeric c))
         (flat_map (fun c => match lookup c df with
                             | Some col => [(c, col)]
                             | None => []
                             end) numerical_cols)).
Proof.
  unfold preprocess_data, emit, select_columns. intros H.
  rewrite bind_ok in H.
  destruct (filter _ numerical_cols) eqn:Hm.
  - cbn [ret bind] in H. injection H as _ Ht. symmetry. exact Ht.
  - discriminate H.
Qed.

Lemma somes_nil_all_none c : somes c = [] -> forall x, In x c -> x = None.
Proof.
  induction c as [|[v|] c IH]; simpl; intros H x Hx; try contradiction.
  - discriminate.
  - destruct Hx as [<-|Hx]; [reflexivity | apply IH; assumption].
Qed.

(** Amended C2: after preprocessing, every cell that coerced to a number
    keeps it; in a column with at least one number every missing cell holds
    the mean of the column's numbers; a column with no number stays
    entirely missing (NaN). *)
Theorem preprocess_mean_imputation (df : raw_table) log (t : num_table) :
  preprocess_data df = Ok log t ->
  forall n c, In (n, c) t ->
  exists raw, lookup n df = Some raw /\
    let c0 := map to_numeric raw in
    List.length c = List.length c0 /\
    (forall k v, nth_error c0 k = Some (Some v) -> nth_error c k = Some (Some v)) /\
    (somes c0 <> [] -> forall k, nth_error c0 k = Some None ->
       nth_error c k = Some (Some (mean (somes c0)))) /\
    (somes c0 = [] -> forall x, In x c -> x = None).
Proof.
  intros H n c Hin. apply preprocess_ok_inv in H. subst t.
  unfold fillna_mean in Hin. apply in_map_iff in Hin as [[n1 c1] [Heq Hin]].
  injection Heq as <- <-.
  apply in_map_iff in Hin as [[n2 raw] [Heq Hin]]. injection Heq as <- <-.
  apply in_flat_map in Hin as [x [_ Hx]].
  destruct (lookup x df) as [col0|] eqn:Hl; [|contradiction].
  destruct Hx as [Heq|[]]. injection Heq as Hn Hr. subst x col0.
  exists raw. split; [exact Hl|]. cbv zeta.
  remember (map to_numeric raw) as c0 eqn:Hc0; clear Hc0. unfold fval in *.
  unfold fill_column. split; [apply length_map|].
  split.
  { intros k v Hk. rewrite nth_error_map, Hk. reflexivity. }
  split.
  { intros Hne k Hk. rewrite nth_error_map, Hk. simpl.
    unfold col_mean. destruct (somes c0); [contradiction | reflexivity]. }
  intros Hnil x Hx. apply in_map_iff in Hx as [y [<- Hy]].
  rewrite (somes_nil_all_none c0 Hnil y Hy).
  unfold col_mean. rewrite Hnil. reflexivity.
Qed.

Lemma preprocess_mean_imputation_witness :
  preprocess_data (full_raw [CNum 15; CNaN]) =
    Ok (log_of (preprocess_data (full_raw [CNum 15; CNaN])))
       (fillna_mean (map (fun '(n, c) => (n, map to_numeric c))
          (flat_map (fun c => match lookup c (full_raw [CNum 15; CNaN]) with
                              | Some col => [(c, col)]
                              | None => []
                              end) numerical_cols))) /\
  forall n c, In (n, c) (fillna_mean (map (fun '(n, c) => (n, map to_numeric c))
          (flat_map (fun c => match lookup c (full_raw [CNum 15; CNaN]) with
                              | Some col => [(c, col)]
                              | None => []
                              end) numerical_cols))) ->
  exists raw, lookup n (full_raw [CNum 15; CNaN]) = Some raw /\
    let c0 := map to_numeric raw in
    List.length c = List.length c0 /\
    (forall k v, nth_error c0 k = Some (Some v) -> nth_error c k = Some (Some v)) /\
    (somes c0 <> [] -> forall k, nth_error c0 k = Some None ->
       nth_error c k = Some (Some (mean (somes c0)))) /\
    (somes c0 = [] -> forall x, In x c -> x = None).
Proof.
  assert (H : preprocess_data (full_raw [CNum 15; CNaN]) =
    Ok (log_of (preprocess_data (full_raw [CNum 15; CNaN])))
       (fillna_mean (map (fun '(n, c) => (n, map to_numeric c))
          (flat_map (fun c => match lookup c (full_raw [CNum 15; CNaN]) with
                              | Some col => [(c, col)]
                              | None => []
                              end) numerical_cols))))
    by reflexivity.
  split; [exact H | exact (preprocess_mean_imputation _ _ _ H)].
Defined.

(** C2 as stated fails: with an all-empty [BMI] column the numeric table
    still holds missing cells, since the mean of that column is NaN. *)
Lemma preprocess_keeps_all_missing_column :
  ~ (forall df log t, preprocess_data df = Ok log t ->
       forall n c, In (n, c) t -> ~ In None c).
Proof.
  intros H.
  destruct (preprocess_data (full_raw [CNaN; CNaN])) as [log t|log e] eqn:E.
  - pose proof (preprocess_ok_inv _ _ _ E) as Ht.
    apply (H _ _ _ E "BMI"%string [None; None]); [|left; reflexivity].
    rewrite Ht. vm_compute.
    do 10 right. left. reflexivity.
  - vm_compute in E. discriminate E.
Qed.

(** ** No allow-listed column *)

(** Amended C6: when the raw table has none of the fourteen allow-listed
    columns, the run never reaches the analysis: no ranking table, no
    banner (the code has no NoFeatures banner), no heatmap and no scatter
    plot is shown. *)
Theorem no_allow_listed_column_no_analysis (df : raw_table) :
  (forall c, In c numerical_cols -> ~ In c (names df)) ->
  forall ev, In ev (log_of (main (Loaded df))) -> analysis_or_banner ev = false.
Proof.
  intros Hnone ev Hev.
  assert (Hc : In "신장"%string numerical_cols) by (left; reflexivity).
  destruct (missing_column_runs df _ Hc (Hnone _ Hc)) as [m [_ [_ Hmain]]].
  rewrite Hmain in Hev. simpl in Hev.
  repeat destruct Hev as [<-|Hev]; try reflexivity. contradiction.
Qed.


Lemma no_allow_listed_column_no_analysis_witness :
  (forall c, In c numerical_cols -> ~ In c (names other_columns_only)) /\
  forall ev, In ev (log_of (main (Loaded other_columns_only))) ->
    analysis_or_banner ev = false.
Proof.
  assert (H : forall c, In c numerical_cols -> ~ In c (names other_columns_only)).
  { intros c Hc Hn. simpl in Hn. destruct Hn as [<-|[]].
    apply existsb_eqb_In in Hc. vm_compute in Hc. discriminate Hc. }
  split; [exact H | exact (no_allow_listed_column_no_analysis _ H)].
Defined.

(** C6 as stated fails: on a table without allow-listed columns the run
    shows no error banner at all (no NoFeatures condition is reported). *)
Lemma no_allow_listed_column_no_banner :
  ~ exists msg, In (ErrorBanner msg) (log_of (main (Loaded other_columns_only))).
Proof.
  intros [msg H]. vm_compute in H.
  repeat destruct H as [H|H]; try discriminate H. exact H.
Qed.

(** ** The correlation matrix *)

Lemma mat_get_corr_matrix t i j :
  mat_get (corr_matrix t) i j =
  if (i <? List.length t)%nat && (j <? List.length t)%nat
  then Some (corr_at t i j) else None.
Proof.
  unfold mat_get, corr_matrix.
  rewrite nth_error_map, nth_error_seq.
  destruct (i <? List.length t)%nat; simpl; [|reflexivity].
  rewrite nth_error_map, nth_error_seq.
  destruct (j <? List.length t)%nat; reflexivity.
Qed.


Lemma clip_bounds v : -1 <= clip v <= 1.
Proof. unfold clip. destruct (Rlt_dec 1 v), (Rlt_dec v (-1)); lra. Qed.

Lemma pearson_bounds x y r : pearson x y = Some r -> -1 <= r <= 1.
Proof.
  unfold pearson. destruct (pairs x y) as [|p ps]; [discriminate|].
  destruct (Req_dec_T _ 0); [discriminate|].
  intros H. injection H as <-. apply clip_bounds.
Qed.





Lemma pearson_no_rows x y : pairs x y = [] -> pearson x y = None.
Proof. intros H. unfold pearson. rewrite H. reflexivity. Qed.







(** ** Identical columns *)




(** * Further properties of the program *)

(** ** Runs of [preprocess_data] and [main] *)

Lemma preprocess_ok_shape df log t :
  preprocess_data df = Ok log t ->
  t = numeric_of df /\
  log = [Subheader "📊 데이터 전처리";
         Write "전처리 후 사용 가능한 숫자형 데이터 수" (n_rows t);
         ShowNum (head5 t)].
Proof.
  unfold preprocess_data, emit, select_columns. intros H.
  rewrite bind_ok in H.
  destruct (filter _ numerical_cols) eqn:Hm.
  - cbn [ret bind] in H. injection H as Hl Ht. subst. split; reflexivity.
  - discriminate H.
Qed.

Lemma preprocess_ok_all_present df log t :
  preprocess_data df = Ok log t -> Forall (fun c => In c (names df)) numerical_cols.
Proof.
  intros H. apply Forall_forall. intros c Hc.
  destruct (in_dec string_dec c (names df)) as [Hin|Hnot]; [exact Hin|].
  destruct (missing_column_runs df c Hc Hnot) as [m [_ [Hp _]]].
  rewrite Hp in H. discriminate H.
Qed.

Lemma preprocess_ok_names df log t :
  preprocess_data df = Ok log t -> names t = numerical_cols.
Proof.
  intros H.
  destruct (preprocess_columns_in_order df (preprocess_ok_all_present _ _ _ H))
    as [log' [t' [H' Hn]]].
  rewrite H in H'. injection H' as _ <-. exact Hn.
Qed.

Lemma target_in_numerical_cols : In target numerical_cols.
Proof. right. right. left. reflexivity. Qed.

Lemma main_loaded_ok df log t :
  preprocess_data df = Ok log t ->
  main (Loaded df) =
  Ok ([Title "🏃‍♀️ 운동 데이터 분석 웹사이트";
       Markdown ("파일 **`" ++ file_path ++ "`**을 분석합니다.");
       Subheader "📄 원본 데이터 미리보기"; ShowRaw (head5 df);
       Write "전체 데이터 수" (n_rows df); Markdown "---"]
      ++ log
      ++ (if is_empty t then []
          else Markdown "---" :: log_of (analyze_and_visualize t))) tt.
Proof.
  intros H.
  assert (Ht : In target (names t))
    by (rewrite (preprocess_ok_names _ _ _ H); apply target_in_numerical_cols).
  unfold main, main_with, load_data. cbn [ret bind emit].
  rewrite H, bind_ok. destruct (is_empty t); cbn [negb].
  - cbn [ret]. rewrite !app_nil_r. reflexivity.
  - cbn [emit]. rewrite (analyze_with_target t Ht). reflexivity.
Qed.

(** ** The descending order and the ranking table *)

Lemma fgeb_trans x y z : fgeb x y = true -> fgeb y z = true -> fgeb x z = true.
Proof.
  intros H1 H2.
  destruct x as [a|], y as [b|], z as [c|]; simpl in *;
    try reflexivity; try discriminate.
  destruct (Rle_dec b a), (Rle_dec c b), (Rle_dec c a);
    try reflexivity; try discriminate; lra.
Qed.

Lemma fge_entry_trans p q r : fge_entry p q -> fge_entry q r -> fge_entry p r.
Proof. unfold fge_entry. apply fgeb_trans. Qed.

Lemma sort_desc_strongly_sorted s : StronglySorted fge_entry (sort_desc s).
Proof.
  apply Sorted_StronglySorted; [exact fge_entry_trans | apply sort_desc_sorted].
Qed.

Lemma Forall_skipn_of {A} (P : A -> Prop) n l : Forall P l -> Forall P (skipn n l).
Proof.
  revert l. induction n as [|n IH]; intros l H; [exact H|].
  destruct l as [|a l]; [constructor|]. inversion H; subst. apply IH. assumption.
Qed.

Lemma strongly_sorted_split {A} (Rel : A -> A -> Prop) n l :
  StronglySorted Rel l -> Forall (fun p => Forall (Rel p) (skipn n l)) (firstn n l).
Proof.
  revert l. induction n as [|n IH]; intros l Hs; [constructor|].
  destruct l as [|a l]; [constructor|].
  apply StronglySorted_inv in Hs as [Hl Ha]. simpl. constructor.
  - apply Forall_skipn_of. exact Ha.
  - apply IH. exact Hl.
Qed.

Lemma nan_suffix (l : series) :
  StronglySorted fge_entry l ->
  exists k, Forall (fun p => snd p <> None) (firstn k l) /\
            Forall (fun p => snd p = None) (skipn k l).
Proof.
  induction 1 as [|a l Hs [k [Hf Hk]] Ha].
  - exists O. split; constructor.
  - destruct (snd a) as [v|] eqn:Hv.
    + exists (S k). simpl. split; [constructor; [intros E; unfold fval in *; congruence | exact Hf] | exact Hk].
    + exists O. simpl. split; [constructor|]. constructor; [exact Hv|].
      eapply Forall_impl; [|exact Ha]. intros q Hq. unfold fge_entry in Hq.
      rewrite Hv in Hq. destruct (snd q) eqn:E; [discriminate | exact E].
Qed.

Lemma Forall_perm {A} (P : A -> Prop) l l' :
  Permutation l l' -> Forall P l' -> Forall P l.
Proof.
  intros Hp H. rewrite Forall_forall in *. intros x Hx.
  apply H. eapply Permutation_in; eassumption.
Qed.

Lemma corr_column_bounded df k :
  Forall (fun p => match snd p with None => True | Some r => -1 <= r <= 1 end)
    (corr_column df k).
Proof.
  unfold corr_column. apply Forall_forall. intros p Hp.
  apply in_map_iff in Hp as [i [<- _]]. simpl.
  destruct (corr_at df i _) as [r|] eqn:Hc; [|exact I].
  unfold corr_at in Hc. destruct (_ <=? _)%nat; eapply pearson_bounds; exact Hc.
Qed.

Lemma target_corr_bounded df :
  Forall (fun p => match snd p with None => True | Some r => -1 <= r <= 1 end)
    (target_corr_of df).
Proof.
  unfold target_corr_of, drop. apply Forall_forall. intros p Hp.
  apply filter_In in Hp as [Hp _].
  apply (Permutation_in _ (sort_desc_perm _)) in Hp.
  pose proof (corr_column_bounded df target) as HB. rewrite Forall_forall in HB.
  exact (HB p Hp).
Qed.

Lemma names_sort_desc_perm s : Permutation (names (sort_desc s)) (names s).
Proof. apply Permutation_map, sort_desc_perm. Qed.

Lemma names_ranking_perm df :
  Permutation (names (ranking_of df))
    (filter (fun n => negb (String.eqb n target)) (names df)).
Proof.
  unfold ranking_of. rewrite names_sort_desc_perm, names_abs_series.
  unfold target_corr_of. rewrite names_drop.
  rewrite <- (names_corr_column df target).
  apply Permutation_filter_compat, names_sort_desc_perm.
Qed.

(** X1. The ranking table lists each column of the numeric table except
    [체지방율] exactly as often as the table has it, whatever its values. *)
Theorem ranking_labels df :
  Permutation (names (ranking_of df))
    (filter (fun n => negb (String.eqb n target)) (names df)).
Proof. apply names_ranking_perm. Qed.

(** X2. In the ranking table each of the first [n] entries compares at
    least as large as every later one (NaN smallest); in particular the
    three features chosen for the scatter plots dominate all others. *)
Theorem ranking_prefix_dominates df n :
  Forall (fun p => Forall (fge_entry p) (skipn n (ranking_of df)))
    (firstn n (ranking_of df)).
Proof. apply strongly_sorted_split, sort_desc_strongly_sorted. Qed.

(** X3. The NaN entries of the ranking table come last: a prefix holds
    numbers only and the rest is NaN. *)
Theorem ranking_nan_last df :
  exists k, Forall (fun p => snd p <> None) (firstn k (ranking_of df)) /\
            Forall (fun p => snd p = None) (skipn k (ranking_of df)).
Proof. apply nan_suffix, sort_desc_strongly_sorted. Qed.

(** X4. Every value of the ranking table, the absolute correlations with
    [체지방율], is NaN or lies in [0, 1]. *)
Theorem ranking_values_in_unit df :
  Forall (fun p => match snd p with None => True | Some r => 0 <= r <= 1 end)
    (ranking_of df).
Proof.
  unfold ranking_of. eapply Forall_perm; [apply sort_desc_perm|].
  unfold abs_series. apply Forall_map.
  eapply Forall_impl; [|apply target_corr_bounded].
  intros [n [r|]] H; simpl in *; [|exact I].
  split; [apply Rabs_pos|]. apply Rabs_le. exact H.
Qed.

(** X5. [analyze_and_visualize] never raises: with or without the target
    column it returns normally. *)
Theorem analyze_never_raises df : exists log, analyze_and_visualize df = Ok log tt.
Proof.
  destruct (existsb (String.eqb target) (names df)) eqn:He.
  - eexists. apply analyze_with_target. apply existsb_eqb_In. exact He.
  - unfold analyze_and_visualize. rewrite He. eexists. reflexivity.
Qed.

(** ** Labels of series *)

Lemma lookup_nodup_In {A} (s : list (string * A)) k v :
  NoDup (names s) -> In (k, v) s -> lookup k s = Some v.
Proof.
  induction s as [|[n w] s IH]; intros Hnd Hin; [destruct Hin|].
  inversion Hnd as [|? ? Hn Hnd']; subst.
  unfold lookup. simpl. destruct (String.eqb n k) eqn:E.
  - apply String.eqb_eq in E. subst n. destruct Hin as [Heq|Hin].
    + injection Heq as ->. reflexivity.
    + exfalso. apply Hn. apply (in_map fst) in Hin. exact Hin.
  - destruct Hin as [Heq|Hin].
    + injection Heq as -> ->. rewrite String.eqb_refl in E. discriminate.
    + apply IH; assumption.
Qed.

Lemma index_of_spec k l d :
  In k l -> (index_of k l < List.length l)%nat /\ nth (index_of k l) l d = k.
Proof.
  induction l as [|x l IH]; intros H; [destruct H|].
  simpl. destruct (String.eqb x k) eqn:E.
  - apply String.eqb_eq in E. split; [lia | exact E].
  - destruct H as [->|H]; [rewrite String.eqb_refl in E; discriminate|].
    destruct (IH H) as [Hl Hn]. split; [lia | exact Hn].
Qed.

Lemma NoDup_firstn_of {A} n (l : list A) : NoDup l -> NoDup (firstn n l).
Proof.
  revert l. induction n as [|n IH]; intros l H; [constructor|].
  destruct l as [|a l]; [constructor|]. inversion H; subst. simpl.
  constructor; [|apply IH; assumption].
  intros Hin. apply In_firstn in Hin. contradiction.
Qed.

Lemma nodup_target_corr df :
  NoDup (names df) -> NoDup (names (target_corr_of df)).
Proof.
  intros H. unfold target_corr_of. rewrite names_drop. apply NoDup_filter.
  eapply Permutation_NoDup; [symmetry; apply names_sort_desc_perm|].
  rewrite names_corr_column. exact H.
Qed.

Lemma nodup_ranking df : NoDup (names df) -> NoDup (names (ranking_of df)).
Proof.
  intros H. unfold ranking_of.
  eapply Permutation_NoDup; [symmetry; apply names_sort_desc_perm|].
  rewrite names_abs_series. apply nodup_target_corr. exact H.
Qed.

Lemma numerical_cols_nodup : NoDup numerical_cols.
Proof.
  unfold numerical_cols.
  repeat (apply NoDup_cons; [simpl; intuition discriminate|]).
  apply NoDup_nil.
Qed.

Lemma length_ranking_of_cols t :
  names t = numerical_cols -> List.length (ranking_of t) = 13%nat.
Proof.
  intros H. rewrite <- (length_map fst (ranking_of t)).
  change (map fst (ranking_of t)) with (names (ranking_of t)).
  rewrite (Permutation_length (names_ranking_perm t)), H. reflexivity.
Qed.

Lemma highest_length_of_cols t :
  names t = numerical_cols -> List.length (highest_corr_features t) = 3%nat.
Proof.
  intros H. unfold highest_corr_features, names. rewrite length_map, length_firstn.
  rewrite (length_ranking_of_cols t H). reflexivity.
Qed.

Lemma corr_matrix_dims t :
  List.length (corr_matrix t) = List.length t /\
  Forall (fun row => List.length row = List.length t) (corr_matrix t).
Proof.
  unfold corr_matrix. rewrite length_map, length_seq. split; [reflexivity|].
  apply Forall_map, Forall_forall. intros i _. rewrite length_map, length_seq.
  reflexivity.
Qed.

Lemma filter_scatters tc fs :
  filter is_scatter (map (scatter_event tc) fs) = map (scatter_event tc) fs.
Proof. induction fs as [|f fs IH]; simpl; [reflexivity | rewrite IH; reflexivity]. Qed.

(** ** Runs that fail *)

Lemma preprocess_raised_shape df l e :
  preprocess_data df = Raised l e ->
  l = [Subheader "📊 데이터 전처리"] /\
  exists missing, e = KeyError missing /\ missing <> [] /\
    (forall c, In c missing <-> In c numerical_cols /\ ~ In c (names df)).
Proof.
  unfold preprocess_data, emit, select_columns. intros H.
  rewrite bind_ok in H.
  destruct (filter _ numerical_cols) as [|m ms] eqn:Hm; [discriminate H|].
  cbn [raise] in H. injection H as Hl He. subst. split; [reflexivity|].
  exists (m :: ms). split; [reflexivity|]. split; [discriminate|].
  intros c. rewrite <- Hm. split.
  - intros Hc. apply filter_In in Hc as [Hc Hn]. split; [exact Hc|].
    intros Hin. apply existsb_eqb_In in Hin. rewrite Hin in Hn. discriminate.
  - intros [Hc Hn]. apply filter_In. split; [exact Hc|].
    destruct (existsb (String.eqb c) (names df)) eqn:E; [|reflexivity].
    apply existsb_eqb_In in E. contradiction.
Qed.

Lemma main_loaded_raised df l e :
  preprocess_data df = Raised l e ->
  main (Loaded df) =
  Raised ([Title "🏃‍♀️ 운동 데이터 분석 웹사이트";
           Markdown ("파일 **`" ++ file_path ++ "`**을 분석합니다.");
           Subheader "📄 원본 데이터 미리보기"; ShowRaw (head5 df);
           Write "전체 데이터 수" (n_rows df); Markdown "---"] ++ l) e.
Proof.
  intros H. unfold main, main_with, load_data. cbn [ret bind emit].
  rewrite H, bind_raised. reflexivity.
Qed.

Lemma lookup_In {A} k (t : list (string * A)) v : lookup k t = Some v -> In (k, v) t.
Proof.
  unfold lookup. destruct (find _ t) as [[n w]|] eqn:F; [|discriminate].
  intros H. injection H as <-. apply find_some in F as [Hin Heq].
  simpl in Heq. apply String.eqb_eq in Heq. subst n. exact Hin.
Qed.

Lemma numeric_of_columns df n c :
  In (n, c) (numeric_of df) ->
  exists raw, In (n, raw) df /\ List.length c = List.length raw.
Proof.
  unfold numeric_of, fillna_mean. intros Hin.
  apply in_map_iff in Hin as [[n1 c1] [Heq Hin]]. injection Heq as <- <-.
  apply in_map_iff in Hin as [[n2 raw] [Heq Hin]]. injection Heq as <- <-.
  apply in_flat_map in Hin as [x [_ Hx]].
  destruct (lookup x df) as [col0|] eqn:Hl; [|contradiction].
  destruct Hx as [Heq|[]]. injection Heq as <- <-.
  exists col0. split; [apply lookup_In; exact Hl|].
  unfold fill_column. rewrite !length_map. reflexivity.
Qed.

(** ** Runs of the whole page *)

(** X6. [main] shows an error banner exactly when reading the file failed,
    with the message of the failing branch of [load_data]; the banner for a
    missing [체지방율] column is never shown, since [preprocess_data] always
    returns that column or raises. *)
Theorem error_banner_only_on_load_failure src msg :
  In (ErrorBanner msg) (log_of (main src)) <->
  (src = FileNotFound /\ msg = ("파일을 찾을 수 없습니다: " ++ file_path)%string) \/
  (exists e, src = ReadFailure e /\ msg = ("데이터 로딩 중 오류 발생: " ++ e)%string).
Proof.
  destruct src as [df| |e].
  - split; [|intros [[H _]|[e [H _]]]; discriminate].
    intros H. exfalso.
    destruct (preprocess_data df) as [l t|l ex] eqn:Hp.
    + rewrite (main_loaded_ok _ _ _ Hp) in H.
      destruct (preprocess_ok_shape _ _ _ Hp) as [_ Hl]. subst l.
      assert (Ht : In target (names t))
        by (rewrite (preprocess_ok_names _ _ _ Hp); apply target_in_numerical_cols).
      destruct (is_empty t); [|rewrite (analyze_with_target t Ht) in H];
        cbn [log_of app In] in H;
        repeat (destruct H as [H|H]; [discriminate|]); try exact H.
      apply in_map_iff in H as [f [Hf _]]. discriminate.
    + rewrite (main_loaded_raised _ _ _ Hp) in H.
      destruct (preprocess_raised_shape _ _ _ Hp) as [Hl _]. subst l.
      cbn [log_of app In] in H.
      repeat (destruct H as [H|H]; [discriminate|]). exact H.
  - cbn [main load_data emit bind ret log_of app In]. split.
    + intros [H|[H|[H|[]]]]; try discriminate. injection H as <-. left. split; reflexivity.
    + intros [[_ ->]|[e [H _]]]; [|discriminate]. right; right; left; reflexivity.
  - cbn [main load_data emit bind ret log_of app In]. split.
    + intros [H|[H|[H|[]]]]; try discriminate. injection H as <-. right.
      exists e. split; reflexivity.
    + intros [[H _]|[e' [H ->]]]; [discriminate|]. injection H as ->.
      right; right; left; reflexivity.
Qed.

(** X7. The only exception [main] lets escape is the [KeyError] of the
    column selection in [preprocess_data], raised after a successful load
    and naming exactly the allow-listed columns the file lacks. *)
Theorem main_raises_only_missing_columns src l e :
  main src = Raised l e ->
  exists df missing, src = Loaded df /\ e = KeyError missing /\ missing <> [] /\
    (forall c, In c missing <-> In c numerical_cols /\ ~ In c (names df)).
Proof.
  intros H. destruct src as [df| |e']; [|discriminate H|discriminate H].
  destruct (preprocess_data df) as [l' t|l' e'] eqn:Hp.
  - rewrite (main_loaded_ok _ _ _ Hp) in H. discriminate H.
  - rewrite (main_loaded_raised _ _ _ Hp) in H. injection H as _ <-.
    destruct (preprocess_raised_shape _ _ _ Hp) as [_ [m [He [Hne Hiff]]]].
    exists df, m. auto.
Qed.

Lemma main_raises_only_missing_columns_witness :
  main (Loaded raw_without_last) =
    Raised (log_of (main (Loaded raw_without_last))) (KeyError ["반복옆뛰기"%string]) /\
  exists df missing, Loaded raw_without_last = Loaded df /\
    KeyError ["반복옆뛰기"%string] = KeyError missing /\ missing <> [] /\
    (forall c, In c missing <-> In c numerical_cols /\ ~ In c (names df)).
Proof.
  assert (H : main (Loaded raw_without_last) =
    Raised (log_of (main (Loaded raw_without_last))) (KeyError ["반복옆뛰기"%string]))
    by reflexivity.
  split; [exact H | exact (main_raises_only_missing_columns _ _ _ H)].
Defined.

(** X8. When preprocessing yields a non-empty table, [main] completes: its
    scatter plots are exactly one per selected feature, in ranking order,
    three in all; the success banner and the heatmap are shown, and the
    heatmap is 14 x 14. *)
Theorem main_full_run df log t :
  preprocess_data df = Ok log t -> is_empty t = false ->
  exists l, main (Loaded df) = Ok l tt /\
    filter is_scatter l = map (scatter_event (target_corr_of t)) (highest_corr_features t) /\
    List.length (highest_corr_features t) = 3%nat /\
    In (SuccessBanner (highest_corr_features t)) l /\
    In (Heatmap (corr_matrix t)) l /\
    List.length (corr_matrix t) = 14%nat /\
    Forall (fun row => List.length row = 14%nat) (corr_matrix t).
Proof.
  intros Hp He. pose proof (preprocess_ok_names _ _ _ Hp) as Hn.
  assert (Ht : In target (names t)) by (rewrite Hn; apply target_in_numerical_cols).
  destruct (preprocess_ok_shape _ _ _ Hp) as [_ Hl]. subst log.
  rewrite (main_loaded_ok _ _ _ Hp), He, (analyze_with_target t Ht). cbn [log_of].
  eexists. split; [reflexivity|].
  assert (Hlen : List.length t = 14%nat).
  { rewrite <- (length_map fst t). change (map fst t) with (names t).
    rewrite Hn. reflexivity. }
  destruct (corr_matrix_dims t) as [Hd Hr]. rewrite Hlen in Hd, Hr.
  split; [|split; [apply highest_length_of_cols; exact Hn|]].
  - rewrite !filter_app. cbn [filter is_scatter].
    rewrite !filter_app, filter_scatters. reflexivity.
  - split; [|split; [|split; [exact Hd | exact Hr]]];
      cbn [app In]; intuition.
Qed.

Lemma main_full_run_witness :
  preprocess_data (full_raw [CNum 15; CNum 25]) =
    Ok (log_of (preprocess_data (full_raw [CNum 15; CNum 25])))
       (numeric_of (full_raw [CNum 15; CNum 25])) /\
  is_empty (numeric_of (full_raw [CNum 15; CNum 25])) = false /\
  let t := numeric_of (full_raw [CNum 15; CNum 25]) in
  exists l, main (Loaded (full_raw [CNum 15; CNum 25])) = Ok l tt /\
    filter is_scatter l = map (scatter_event (target_corr_of t)) (highest_corr_features t) /\
    List.length (highest_corr_features t) = 3%nat /\
    In (SuccessBanner (highest_corr_features t)) l /\
    In (Heatmap (corr_matrix t)) l /\
    List.length (corr_matrix t) = 14%nat /\
    Forall (fun row => List.length row = 14%nat) (corr_matrix t).
Proof.
  assert (Hp : preprocess_data (full_raw [CNum 15; CNum 25]) =
    Ok (log_of (preprocess_data (full_raw [CNum 15; CNum 25])))
       (numeric_of (full_raw [CNum 15; CNum 25]))) by reflexivity.
  assert (He : is_empty (numeric_of (full_raw [CNum 15; CNum 25])) = false)
    by reflexivity.
  split; [exact Hp|]. split; [exact He|].
  exact (main_full_run _ _ _ Hp He).
Defined.

(** X9. When the preprocessed table is empty (no row), [main] stops after
    the preprocessing output: no analysis table, banner, heatmap or scatter
    plot appears. *)
Theorem main_empty_skips_analysis df log t :
  preprocess_data df = Ok log t -> is_empty t = true ->
  exists l, main (Loaded df) = Ok l tt /\
    Forall (fun ev => analysis_or_banner ev = false) l.
Proof.
  intros Hp He. destruct (preprocess_ok_shape _ _ _ Hp) as [_ Hl]. subst log.
  rewrite (main_loaded_ok _ _ _ Hp), He. eexists. split; [reflexivity|].
  cbn [app]. repeat constructor.
Qed.

Lemma main_empty_skips_analysis_witness :
  preprocess_data zero_row_raw =
    Ok (log_of (preprocess_data zero_row_raw)) (numeric_of zero_row_raw) /\
  is_empty (numeric_of zero_row_raw) = true /\
  exists l, main (Loaded zero_row_raw) = Ok l tt /\
    Forall (fun ev => analysis_or_banner ev = false) l.
Proof.
  assert (Hp : preprocess_data zero_row_raw =
    Ok (log_of (preprocess_data zero_row_raw)) (numeric_of zero_row_raw))
    by reflexivity.
  assert (He : is_empty (numeric_of zero_row_raw) = true) by reflexivity.
  split; [exact Hp|]. split; [exact He|].
  exact (main_empty_skips_analysis _ _ _ Hp He).
Defined.

(** X10. Preprocessing keeps every row: when all columns of the file have
    [k] rows, every column of the numeric table has [k] rows, its columns
    are the allow-list in its order, and both counts [main] writes are [k]. *)
Theorem preprocess_row_count df log t k :
  Forall (fun p => List.length (snd p) = k) df ->
  preprocess_data df = Ok log t ->
  names t = numerical_cols /\
  Forall (fun p => List.length (snd p) = k) t /\
  In (Write "전체 데이터 수" k) (log_of (main (Loaded df))) /\
  In (Write "전처리 후 사용 가능한 숫자형 데이터 수" k) (log_of (main (Loaded df))).
Proof.
  intros Hk Hp. pose proof (preprocess_ok_names _ _ _ Hp) as Hn.
  destruct (preprocess_ok_shape _ _ _ Hp) as [Ht Hl].
  assert (Hkt : Forall (fun p => List.length (snd p) = k) t).
  { subst t. apply Forall_forall. intros [n c] Hin.
    destruct (numeric_of_columns _ _ _ Hin) as [raw [Hraw Hlen]].
    rewrite Forall_forall in Hk. simpl. rewrite Hlen. exact (Hk _ Hraw). }
  split; [exact Hn|]. split; [exact Hkt|].
  assert (Hdf : n_rows df = k).
  { pose proof (preprocess_ok_all_present _ _ _ Hp) as Hall.
    destruct df as [|[n c] df']; [inversion Hall as [|? ? Hx]; destruct Hx|].
    inversion Hk as [|? ? H1 _]. exact H1. }
  assert (Hnt : n_rows t = k).
  { destruct t as [|[n c] t']; [discriminate Hn|]. inversion Hkt as [|? ? H1 _]. exact H1. }
  rewrite (main_loaded_ok _ _ _ Hp). cbn [log_of]. subst log. rewrite Hdf, Hnt.
  split; apply in_or_app; [left | right]; cbn [app In]; intuition.
Qed.

Lemma preprocess_row_count_witness :
  Forall (fun p => List.length (snd p) = 2%nat) (full_raw [CNum 15; CNum 25]) /\
  preprocess_data (full_raw [CNum 15; CNum 25]) =
    Ok (log_of (preprocess_data (full_raw [CNum 15; CNum 25])))
       (numeric_of (full_raw [CNum 15; CNum 25])) /\
  let t := numeric_of (full_raw [CNum 15; CNum 25]) in
  names t = numerical_cols /\
  Forall (fun p => List.length (snd p) = 2%nat) t /\
  In (Write "전체 데이터 수" 2) (log_of (main (Loaded (full_raw [CNum 15; CNum 25])))) /\
  In (Write "전처리 후 사용 가능한 숫자형 데이터 수" 2)
    (log_of (main (Loaded (full_raw [CNum 15; CNum 25])))).
Proof.
  assert (Hk : Forall (fun p => List.length (snd p) = 2%nat) (full_raw [CNum 15; CNum 25])).
  { unfold full_raw. apply Forall_map, Forall_forall. intros n _. simpl.
    destruct (String.eqb n "BMI"); reflexivity. }
  assert (Hp : preprocess_data (full_raw [CNum 15; CNum 25]) =
    Ok (log_of (preprocess_data (full_raw [CNum 15; CNum 25])))
       (numeric_of (full_raw [CNum 15; CNum 25]))) by reflexivity.
  split; [exact Hk|]. split; [exact Hp|].
  exact (preprocess_row_count _ _ _ _ Hk Hp).
Defined.

(** ** The scatter plots and the heatmap *)

(** X11. For a table with distinct column labels that contains
    [체지방율], the correlation a scatter plot shows for a feature
    ([target_corr[feature]]) is the heatmap entry in the feature's row and
    the [체지방율] column. *)
Theorem scatter_value_is_heatmap_entry df f :
  NoDup (names df) -> In target (names df) -> In f (names df) -> f <> target ->
  Some (series_get (target_corr_of df) f) =
  mat_get (corr_matrix df) (index_of f (names df)) (index_of target (names df)).
Proof.
  intros Hnd Ht Hf Hne.
  destruct (index_of_spec f (names df) ""%string Hf) as [Hi Hni].
  destruct (index_of_spec target (names df) ""%string Ht) as [Hc _].
  assert (Hlen : List.length (names df) = List.length df) by apply length_map.
  rewrite Hlen in Hi, Hc.
  rewrite mat_get_corr_matrix, (proj2 (Nat.ltb_lt _ _) Hi), (proj2 (Nat.ltb_lt _ _) Hc).
  cbn [andb]. f_equal. unfold series_get.
  rewrite (lookup_nodup_In _ f (corr_at df (index_of f (names df)) (index_of target (names df))));
    [reflexivity | apply nodup_target_corr; exact Hnd |].
  unfold target_corr_of, drop. apply filter_In. split.
  - eapply Permutation_in; [symmetry; apply sort_desc_perm|].
    unfold corr_column. apply in_map_iff. exists (index_of f (names df)). split.
    + rewrite Hni. reflexivity.
    + apply in_seq. lia.
  - simpl. apply String.eqb_neq in Hne. rewrite Hne. reflexivity.
Qed.

Lemma scatter_value_is_heatmap_entry_witness :
  let df := full_num 1 [Some 1; Some 3] in
  NoDup (names df) /\ In target (names df) /\ In "BMI"%string (names df) /\
  "BMI"%string <> target /\
  Some (series_get (target_corr_of df) "BMI") =
  mat_get (corr_matrix df) (index_of "BMI" (names df)) (index_of target (names df)).
Proof.
  cbv zeta.
  assert (Hn : names (full_num 1 [Some 1; Some 3]) = numerical_cols) by reflexivity.
  assert (H1 : NoDup (names (full_num 1 [Some 1; Some 3])))
    by (rewrite Hn; exact numerical_cols_nodup).
  assert (H2 : In target (names (full_num 1 [Some 1; Some 3])))
    by (rewrite Hn; exact target_in_numerical_cols).
  assert (H3 : In "BMI"%string (names (full_num 1 [Some 1; Some 3])))
    by (apply existsb_eqb_In; reflexivity).
  assert (H4 : "BMI"%string <> target) by discriminate.
  split; [exact H1|]. split; [exact H2|]. split; [exact H3|]. split; [exact H4|].
  exact (scatter_value_is_heatmap_entry _ _ H1 H2 H3 H4).
Defined.

(** X12. After a successful preprocessing the features of the scatter
    plots are pairwise distinct and never [체지방율] itself. *)
Theorem scatter_features_distinct df log t :
  preprocess_data df = Ok log t ->
  NoDup (highest_corr_features t) /\ ~ In target (highest_corr_features t).
Proof.
  intros Hp. pose proof (preprocess_ok_names _ _ _ Hp) as Hn. split.
  - unfold highest_corr_features, names. rewrite <- firstn_map.
    apply NoDup_firstn_of, nodup_ranking. rewrite Hn. exact numerical_cols_nodup.
  - intros H. apply highest_in_target_corr in H.
    exact (target_not_in_target_corr t H).
Qed.

Lemma scatter_features_distinct_witness :
  preprocess_data (full_raw [CNum 15; CNum 25]) =
    Ok (log_of (preprocess_data (full_raw [CNum 15; CNum 25])))
       (numeric_of (full_raw [CNum 15; CNum 25])) /\
  NoDup (highest_corr_features (numeric_of (full_raw [CNum 15; CNum 25]))) /\
  ~ In target (highest_corr_features (numeric_of (full_raw [CNum 15; CNum 25]))).
Proof.
  assert (Hp : preprocess_data (full_raw [CNum 15; CNum 25]) =
    Ok (log_of (preprocess_data (full_raw [CNum 15; CNum 25])))
       (numeric_of (full_raw [CNum 15; CNum 25]))) by reflexivity.
  split; [exact Hp | exact (scatter_features_distinct _ _ _ Hp)].
Defined.

(** ** Column order of the file *)

Lemma lookup_none {A} k (t : list (string * A)) : ~ In k (names t) -> lookup k t = None.
Proof.
  intros Hn. destruct (lookup k t) as [v|] eqn:E; [|reflexivity].
  apply lookup_In in E. apply (in_map fst) in E. contradiction.
Qed.

Lemma lookup_perm {A} (s s' : list (string * A)) k :
  NoDup (names s) -> Permutation s s' -> lookup k s = lookup k s'.
Proof.
  intros Hnd Hp.
  assert (Hnd' : NoDup (names s'))
    by (eapply Permutation_NoDup; [apply Permutation_map; exact Hp | exact Hnd]).
  destruct (in_dec string_dec k (names s)) as [Hin|Hnot].
  - destruct (lookup_In_names k s Hin) as [v [Hl Hv]]. rewrite Hl. symmetry.
    apply lookup_nodup_In; [exact Hnd'|]. eapply Permutation_in; eassumption.
  - rewrite (lookup_none k s Hnot). symmetry. apply lookup_none.
    intros H. apply Hnot. eapply Permutation_in; [|exact H].
    symmetry. apply Permutation_map. exact Hp.
Qed.

Lemma existsb_eqb_perm c l l' :
  Permutation l l' -> existsb (String.eqb c) l = existsb (String.eqb c) l'.
Proof.
  intros Hp.
  destruct (existsb (String.eqb c) l) eqn:E1, (existsb (String.eqb c) l') eqn:E2;
    try reflexivity.
  - apply existsb_eqb_In in E1.
    assert (H : existsb (String.eqb c) l' = true)
      by (apply existsb_eqb_In; eapply Permutation_in; eassumption).
    congruence.
  - apply existsb_eqb_In in E2.
    assert (H : existsb (String.eqb c) l = true)
      by (apply existsb_eqb_In; eapply Permutation_in; [symmetry|]; eassumption).
    congruence.
Qed.

Lemma select_columns_perm {A} (t t' : list (string * A)) cols :
  NoDup (names t) -> Permutation t t' -> select_columns t cols = select_columns t' cols.
Proof.
  intros Hnd Hp. unfold select_columns.
  rewrite (filter_ext (fun c => negb (existsb (String.eqb c) (names t)))
                      (fun c => negb (existsb (String.eqb c) (names t')))).
  2:{ intros c. rewrite (existsb_eqb_perm c (names t) (names t') (Permutation_map fst Hp)).
       reflexivity. }
  destruct (filter _ cols); [|reflexivity].
  f_equal. apply flat_map_ext. intros c. rewrite (lookup_perm t t' c Hnd Hp).
  reflexivity.
Qed.

(** X17. [preprocess_data] does not depend on the order of the file's
    columns: for distinct column labels, reordering them gives the same
    output and the same table. *)
Theorem preprocess_column_order_irrelevant df df' :
  NoDup (names df) -> Permutation df df' -> preprocess_data df = preprocess_data df'.
Proof.
  intros Hnd Hp. unfold preprocess_data.
  rewrite (select_columns_perm df df' numerical_cols Hnd Hp). reflexivity.
Qed.

Lemma preprocess_column_order_irrelevant_witness :
  NoDup (names (full_raw [CNum 15; CNum 25])) /\
  Permutation (full_raw [CNum 15; CNum 25]) (rev (full_raw [CNum 15; CNum 25])) /\
  preprocess_data (full_raw [CNum 15; CNum 25]) =
  preprocess_data (rev (full_raw [CNum 15; CNum 25])).
Proof.
  assert (H1 : NoDup (names (full_raw [CNum 15; CNum 25]))).
  { change (names (full_raw [CNum 15; CNum 25])) with (map fst (full_raw [CNum 15; CNum 25])).
    unfold full_raw. rewrite map_map. exact numerical_cols_nodup. }
  assert (H2 : Permutation (full_raw [CNum 15; CNum 25]) (rev (full_raw [CNum 15; CNum 25])))
    by apply Permutation_rev.
  split; [exact H1|]. split; [exact H2|].
  exact (preprocess_column_order_irrelevant _ _ H1 H2).
Defined.
